(** * The content-automation dashboard (App.jsx): state, handlers, invariants

    The React component [App] of [src/frontend/src/App.jsx] keeps five pieces of
    state ([activeTab], [isSystemRunning], [pendingPreviews], [channels],
    [systemStats]), loads three pending previews in a mount effect and exposes
    three handlers: [toggleSystem], [approveContent] and [rejectContent].

    The component is embedded as a state record, one function per handler that
    returns the next state together with what was written to the console and
    how the call completed, and a labelled transition system over the events
    the rendered page can raise. *)

From Stdlib Require Import List String Ascii ZArith Bool Lia.
From Stdlib Require Import Sorting.Sorted.
From Stdlib Require Import Floats.PrimFloat.
From Stdlib Require Floats.FloatOps Floats.SpecFloat.
From Stdlib Require Numbers.Cyclic.Int63.Uint63.
Import ListNotations.

Local Open Scope string_scope.
Local Open Scope list_scope.
Local Open Scope Z_scope.

(** ** JavaScript values and completions *)

Module Js.

(** The values the handlers can hand back to a caller. *)
Inductive value : Type :=
| Undefined
| Boolean (b : bool)
| Str (s : string)
| Num (z : Z).

(** The error kinds the specification names (section 7).  No statement of
    App.jsx throws, so no handler below ever builds one; the type is here so
    that "fails with InvalidState" can be written down and compared with
    what the handlers do. *)
Inductive error : Type :=
| NotFound
| InvalidState
| GenerationFailure
| PublishFailure
| ConfigError.

(** How a call ends: it returns a value, or it throws. *)
Inductive completion : Type :=
| Return (v : value)
| Throw (e : error).

(** [a === b] on strings. *)
Definition strict_eq (a b : string) : bool := String.eqb a b.

(** [a !== b] on strings. *)
Definition strict_neq (a b : string) : bool := negb (String.eqb a b).

(** [Array.prototype.filter]: the elements that pass, in array order. *)
Definition array_filter {A : Type} (p : A -> bool) (xs : list A) : list A :=
  List.filter p xs.

(** [Array.prototype.find]: the first element that passes, or [undefined]. *)
Definition array_find {A : Type} (p : A -> bool) (xs : list A) : option A :=
  List.find p xs.

End Js.

(** ** Data model *)

(** Money: the source writes revenues as decimal literals with two places
    ([245.50]); they are kept as an exact number of cents.  Module
    [Binary64] below looks at the same literals as IEEE doubles. *)
Definition cents := Z.

Module Channel.

(** An element of the [channels] array (App.jsx lines 34-90). *)
Record t : Type := mk {
  id : string;
  name : string;
  platform : string;
  status : string;
  followers : Z;
  todayViews : Z;
  revenue : cents;
  contentGenerated : Z;
  publishedToday : Z
}.

End Channel.

Module ContentItem.

(** An element of the [pendingPreviews] array (App.jsx lines 105-131).  The
    object has no lifecycle-state field and no generation timestamp. *)
Record t : Type := mk {
  id : string;
  channelId : string;
  title : string;
  content : string;
  scheduledTime : string;
  timeLeft : string;
  mediaType : string
}.

End ContentItem.

Module SystemStats.

(** The [systemStats] object (App.jsx lines 92-100). *)
Record t : Type := mk {
  totalViews : Z;
  totalRevenue : cents;
  totalFollowers : Z;
  contentGenerated : Z;
  publishedToday : Z;
  pendingPreviews : Z;
  scheduledContent : Z
}.

End SystemStats.

(** The five [useState] cells of [App]. *)
Record AppState : Type := mkApp {
  activeTab : string;
  isSystemRunning : bool;
  pendingPreviews : list ContentItem.t;
  channels : list Channel.t;
  systemStats : SystemStats.t
}.

(** ** Initial values (the arguments of the [useState] calls) *)

Definition horror_stories : Channel.t :=
  Channel.mk "horror_stories" "قصص الرعب" "TikTok" "active"
             15420 8750 24550 12 3.

Definition islamic_stories : Channel.t :=
  Channel.mk "islamic_stories" "القصص الإسلامية" "TikTok" "active"
             22100 12300 38075 15 4.

Definition home_design : Channel.t :=
  Channel.mk "home_design" "تصميم المنازل والعقارات" "YouTube" "active"
             8900 5600 19525 8 2.

Definition motivation : Channel.t :=
  Channel.mk "motivation" "التحفيز والاقتباسات" "TikTok" "active"
             31500 18900 52080 20 5.

Definition ai_chef : Channel.t :=
  Channel.mk "ai_chef" "AI Chef" "YouTube" "active"
             12750 9200 31040 10 3.

Definition initialChannels : list Channel.t :=
  [horror_stories; islamic_stories; home_design; motivation; ai_chef].

Definition initialSystemStats : SystemStats.t :=
  SystemStats.mk 54750 165270 90670 65 17 8 25.

Definition initialState : AppState :=
  {| activeTab := "dashboard";
     isSystemRunning := true;
     pendingPreviews := [];
     channels := initialChannels;
     systemStats := initialSystemStats |}.

(** The array the mount effect stores (App.jsx lines 104-132). *)
Definition preview_1 : ContentItem.t :=
  ContentItem.mk "preview_1" "horror_stories" "قصة الدمية المسكونة"
    "في منزل قديم بالريف، وجدت سارة دمية قديمة في العلية..."
    "22:00" "45 دقيقة" "video".

Definition preview_2 : ContentItem.t :=
  ContentItem.mk "preview_2" "ai_chef" "وصفة المعكرونة الإيطالية"
    "اليوم سنتعلم طريقة عمل المعكرونة الإيطالية الأصلية..."
    "22:15" "60 دقيقة" "video".

Definition preview_3 : ContentItem.t :=
  ContentItem.mk "preview_3" "motivation" "اقتباس عن النجاح"
    "النجاح ليس نهاية الطريق، والفشل ليس نهاية العالم..."
    "22:30" "75 دقيقة" "image".

Definition loadedPreviews : list ContentItem.t :=
  [preview_1; preview_2; preview_3].

(** ** Handlers *)

(** What a call leaves behind: the state after React has applied the queued
    updates, the lines written with [console.log], and the completion. *)
Record Outcome : Type := mkOutcome {
  next : AppState;
  console : list string;
  result : Js.completion
}.

Definition setActiveTab (tab : string) (s : AppState) : AppState :=
  {| activeTab := tab;
     isSystemRunning := isSystemRunning s;
     pendingPreviews := pendingPreviews s;
     channels := channels s;
     systemStats := systemStats s |}.

Definition setIsSystemRunning (b : bool) (s : AppState) : AppState :=
  {| activeTab := activeTab s;
     isSystemRunning := b;
     pendingPreviews := pendingPreviews s;
     channels := channels s;
     systemStats := systemStats s |}.

(** [setPendingPreviews] in its updater form, [setPendingPreviews(prev => ...)]. *)
Definition setPendingPreviews
    (f : list ContentItem.t -> list ContentItem.t) (s : AppState) : AppState :=
  {| activeTab := activeTab s;
     isSystemRunning := isSystemRunning s;
     pendingPreviews := f (pendingPreviews s);
     channels := channels s;
     systemStats := systemStats s |}.

(** The body of the [useEffect] (lines 102-133): it stores the literal array,
    whatever the list held before. *)
Definition loadPendingPreviews (s : AppState) : Outcome :=
  {| next := setPendingPreviews (fun _ => loadedPreviews) s;
     console := [];
     result := Js.Return Js.Undefined |}.

(** [toggleSystem] (lines 135-137): a block body with no [return]. *)
Definition toggleSystem (s : AppState) : Outcome :=
  {| next := setIsSystemRunning (negb (isSystemRunning s)) s;
     console := [];
     result := Js.Return Js.Undefined |}.

(** [prev.filter(item => item.id !== contentId)]. *)
Definition withoutId (contentId : string) (prev : list ContentItem.t)
  : list ContentItem.t :=
  Js.array_filter (fun item => Js.strict_neq (ContentItem.id item) contentId) prev.

(** [approveContent] (lines 139-143). *)
Definition approveContent (contentId : string) (s : AppState) : Outcome :=
  {| next := setPendingPreviews (withoutId contentId) s;
     console := [("Approved content: " ++ contentId)%string];
     result := Js.Return Js.Undefined |}.

(** [rejectContent] (lines 145-149). *)
Definition rejectContent (contentId : string) (s : AppState) : Outcome :=
  {| next := setPendingPreviews (withoutId contentId) s;
     console := [("Rejected content: " ++ contentId)%string];
     result := Js.Return Js.Undefined |}.

(** ** The page as a transition system *)

(** What can happen to a mounted [App]: the mount effect runs, the header
    button is clicked, one of the two buttons of a preview card is clicked, a
    tab is selected.  The effect is allowed at any time (React's strict mode
    runs it twice), and approve/reject for any id, which over-approximates the
    clicks the rendered cards offer. *)
Inductive Event : Type :=
| Mounted
| ToggleClicked
| ApproveClicked (contentId : string)
| RejectClicked (contentId : string)
| TabSelected (tab : string).

Definition handle (e : Event) (s : AppState) : Outcome :=
  match e with
  | Mounted => loadPendingPreviews s
  | ToggleClicked => toggleSystem s
  | ApproveClicked contentId => approveContent contentId s
  | RejectClicked contentId => rejectContent contentId s
  | TabSelected tab =>
      {| next := setActiveTab tab s; console := []; result := Js.Return Js.Undefined |}
  end.

(** The state after a sequence of events, oldest first. *)
Fixpoint run (es : list Event) (s : AppState) : AppState :=
  match es with
  | [] => s
  | e :: es' => run es' (next (handle e s))
  end.

(** The states the page can be in between two events. *)
Inductive reachable : AppState -> Prop :=
| reach_init : reachable initialState
| reach_step : forall s e, reachable s -> reachable (next (handle e s)).

(** The state once the mount effect has run. *)
Definition loadedState : AppState := run [Mounted] initialState.

(** ** What the page derives from the state when it renders *)

(** [channels.find(c => c.id === content.channelId)] (line 394). *)
Definition findChannel (s : AppState) (content : ContentItem.t) : option Channel.t :=
  Js.array_find
    (fun c => Js.strict_eq (Channel.id c) (ContentItem.channelId content))
    (channels s).

(** The badge of a preview card: [channels.find(...)?.name] (line 394). *)
Definition channelBadge (s : AppState) (content : ContentItem.t) : option string :=
  option_map Channel.name (findChannel s content).

(** The "awaiting review" figure of the analytics tab is
    [pendingPreviews.length] (line 480), not [systemStats.pendingPreviews]. *)
Definition pendingShown (s : AppState) : Z :=
  Z.of_nat (List.length (pendingPreviews s)).

(** The ids of the pending list, in list order. *)
Definition pendingIds (s : AppState) : list string :=
  map ContentItem.id (pendingPreviews s).

(** The channel of [content] exists: the lookup of line 394 finds a channel of
    the registry whose id is the item's [channelId]. *)
Definition resolves (s : AppState) (content : ContentItem.t) : Prop :=
  exists c,
    findChannel s content = Some c /\
    In c (channels s) /\
    Channel.id c = ContentItem.channelId content.

Definition referentialIntegrity (s : AppState) : Prop :=
  forall content, In content (pendingPreviews s) -> resolves s content.

(** ** The statistics projection, as the specification words it

    App.jsx never recomputes [systemStats]; [setSystemStats] and [setChannels]
    are never called.  The recomputation below follows the specification
    (section 3 and section 8): sums over the channels, and the number of items
    pending review. *)

Definition sumOver (f : Channel.t -> Z) (cs : list Channel.t) : Z :=
  fold_left (fun acc c => acc + f c) cs 0.

Record Recomputed : Type := mkRecomputed {
  r_totalViews : Z;
  r_totalRevenue : cents;
  r_totalFollowers : Z;
  r_contentGenerated : Z;
  r_publishedToday : Z;
  r_pendingPreviews : Z
}.

Definition recomputeStats (s : AppState) : Recomputed :=
  {| r_totalViews := sumOver Channel.todayViews (channels s);
     r_totalRevenue := sumOver Channel.revenue (channels s);
     r_totalFollowers := sumOver Channel.followers (channels s);
     r_contentGenerated := sumOver Channel.contentGenerated (channels s);
     r_publishedToday := sumOver Channel.publishedToday (channels s);
     r_pendingPreviews := Z.of_nat (List.length (pendingPreviews s)) |}.

(** The six maintained figures the projection is compared with. *)
Definition maintainedStats (s : AppState) : Recomputed :=
  let st := systemStats s in
  {| r_totalViews := SystemStats.totalViews st;
     r_totalRevenue := SystemStats.totalRevenue st;
     r_totalFollowers := SystemStats.totalFollowers st;
     r_contentGenerated := SystemStats.contentGenerated st;
     r_publishedToday := SystemStats.publishedToday st;
     r_pendingPreviews := SystemStats.pendingPreviews st |}.

(** Projection consistency: recomputing gives exactly the maintained values. *)
Definition projectionConsistent (s : AppState) : Prop :=
  recomputeStats s = maintainedStats s.

(** The five figures that are sums over the channels. *)
Definition channelSumsConsistent (s : AppState) : Prop :=
  r_totalViews (recomputeStats s) = r_totalViews (maintainedStats s) /\
  r_totalRevenue (recomputeStats s) = r_totalRevenue (maintainedStats s) /\
  r_totalFollowers (recomputeStats s) = r_totalFollowers (maintainedStats s) /\
  r_contentGenerated (recomputeStats s) = r_contentGenerated (maintainedStats s) /\
  r_publishedToday (recomputeStats s) = r_publishedToday (maintainedStats s).

(** ** Lifecycle states, as the specification names them

    A content item of App.jsx carries no state.  Claims that count items "whose
    state is Published" are stated for an arbitrary labelling of the items the
    page holds. *)

Inductive Lifecycle : Type :=
| Generated
| PendingReview
| Approved
| Rejected
| Scheduled
| Published
| Failed.

Definition isPublished (l : Lifecycle) : bool :=
  match l with
  | Published => true
  | _ => false
  end.

(** The number of items of channel [c] among [items] that [label] marks
    Published. *)
Definition publishedCount (label : ContentItem.t -> Lifecycle)
    (c : Channel.t) (items : list ContentItem.t) : Z :=
  Z.of_nat
    (List.length
       (filter
          (fun item =>
             Js.strict_eq (ContentItem.channelId item) (Channel.id c)
             && isPublished (label item))
          items)).

(** Every channel's counter is the number of its Published items. *)
Definition publishedCounterDerived (label : ContentItem.t -> Lifecycle)
    (s : AppState) : Prop :=
  forall c, In c (channels s) ->
    publishedCount label c (pendingPreviews s) = Channel.publishedToday c.

(** The pairs (channel id, publishedToday) of a state. *)
Definition publishedCounters (s : AppState) : list (string * Z) :=
  map (fun c => (Channel.id c, Channel.publishedToday c)) (channels s).

(** ** The order of the approval queue

    [scheduledTime] is a string of the form HH:MM.  The page never sorts the
    list: it shows [pendingPreviews] in array order.  The order the
    specification asks for compares the time of day first, then a generation
    timestamp, then the id.  A content item has no generation timestamp, so
    that key is a parameter. *)

Definition digitValue (c : ascii) : option Z :=
  let n := Z.of_N (N_of_ascii c) in
  if (48 <=? n) && (n <=? 57) then Some (n - 48) else None.

(** Minutes since midnight of a well-formed HH:MM string. *)
Definition minutesOfDay (hhmm : string) : option Z :=
  match hhmm with
  | String h1 (String h2 (String sep (String m1 (String m2 EmptyString)))) =>
      match digitValue h1, digitValue h2, digitValue m1, digitValue m2 with
      | Some a, Some b, Some c, Some d =>
          if Ascii.eqb sep ":"%char && ((10 * a + b) <? 24) && ((10 * c + d) <? 60)
          then Some ((10 * a + b) * 60 + (10 * c + d))
          else None
      | _, _, _, _ => None
      end
  | _ => None
  end.

(** [a] is scheduled strictly before [b]. *)
Definition scheduledBefore (a b : ContentItem.t) : Prop :=
  exists ta tb,
    minutesOfDay (ContentItem.scheduledTime a) = Some ta /\
    minutesOfDay (ContentItem.scheduledTime b) = Some tb /\
    ta < tb.

(** [a] may stand before [b] in the queue: earlier scheduled time; on a tie the
    earlier generation timestamp; on a second tie the smaller id. *)
Definition queueLeb (generatedAt : ContentItem.t -> Z) (a b : ContentItem.t) : bool :=
  match minutesOfDay (ContentItem.scheduledTime a),
        minutesOfDay (ContentItem.scheduledTime b) with
  | Some ta, Some tb =>
      (ta <? tb)
      || ((ta =? tb)
          && ((generatedAt a <? generatedAt b)
              || ((generatedAt a =? generatedAt b)
                  && String.leb (ContentItem.id a) (ContentItem.id b))))
  | _, _ => false
  end.

(** Every item may stand before every later item. *)
Definition queueOrdered (generatedAt : ContentItem.t -> Z)
    (items : list ContentItem.t) : Prop :=
  StronglySorted (fun a b => queueLeb generatedAt a b = true) items.

(** ** The statements of the specification that the handlers are compared with *)

(** Section 8: after a successful [approve(id)], [reject(id)] fails with
    InvalidState and changes nothing. *)
Definition rejectAfterApproveFails (contentId : string) (s : AppState) : Prop :=
  result (approveContent contentId s) = Js.Return Js.Undefined ->
  let s1 := next (approveContent contentId s) in
  result (rejectContent contentId s1) = Js.Throw Js.InvalidState /\
  next (rejectContent contentId s1) = s1.

(** Section 6: [toggleSystem() -> RunState] flips the run state and returns the
    new one.  The run state of App.jsx is the boolean [isSystemRunning]. *)
Definition toggleReturnsRunState (s : AppState) : Prop :=
  isSystemRunning (next (toggleSystem s)) = negb (isSystemRunning s) /\
  result (toggleSystem s)
  = Js.Return (Js.Boolean (isSystemRunning (next (toggleSystem s)))).

(** ** The review window gate *)

Module ReviewWindowGate.

(** Modelled from the spec: the window configuration (section 3,
    ReviewWindow / PublishBoundary).  App.jsx has no such values, only the
    labels "21:00 - 22:00" and "after 22:00" (lines 270, 274, 372-375).
    Times of day are minutes since midnight. *)
Record Config : Type := mkConfig {
  windowStart : Z;
  windowEnd : Z;
  publishBoundary : Z
}.

(** Modelled from the spec: [isReviewOpen(now)] (section 4.3), which App.jsx
    does not define.  The window end is exclusive. *)
Definition isReviewOpen (cfg : Config) (now : Z) : bool :=
  (windowStart cfg <=? now) && (now <? windowEnd cfg).

(** Modelled from the spec: [isPastPublishBoundary(now)] (section 4.3), which
    App.jsx does not define.  The publish boundary is inclusive. *)
Definition isPastPublishBoundary (cfg : Config) (now : Z) : bool :=
  publishBoundary cfg <=? now.

(** The window the page's labels announce: 21:00 - 22:00, publish at 22:00. *)
Definition labelled : Config :=
  {| windowStart := 21 * 60; windowEnd := 22 * 60; publishBoundary := 22 * 60 |}.

End ReviewWindowGate.

(** ** The revenue literals as IEEE doubles *)

Module Binary64.

#[local] Set Warnings "-inexact-float".

(** [channel.revenue] of the five channels, as JavaScript reads the
    literals. *)
Definition revenues : list float :=
  [245.50; 380.75; 195.25; 520.80; 310.40]%float.

(** [systemStats.totalRevenue]. *)
Definition totalRevenue : float := 1652.70%float.

(** [revenues.reduce((acc, r) => acc + r, 0)]. *)
Definition sumLeftToRight (xs : list float) : float :=
  fold_left PrimFloat.add xs 0%float.

End Binary64.

(** ** React's update queue

    A handler does not change a state cell; it enqueues updates, and React
    applies the queue in order before the next render.  [setX(value)]
    replaces the cell; [setX(prev => ...)] computes the cell from what the
    earlier updates of the queue left in it.  Whatever else a handler reads,
    it reads from the render it was created in. *)

Inductive Update : Type :=
| SetActiveTab (tab : string)
| SetIsSystemRunning (b : bool)
| StorePendingPreviews (items : list ContentItem.t)
| UpdatePendingPreviews (f : list ContentItem.t -> list ContentItem.t).

Definition applyUpdate (s : AppState) (u : Update) : AppState :=
  match u with
  | SetActiveTab tab => setActiveTab tab s
  | SetIsSystemRunning b => setIsSystemRunning b s
  | StorePendingPreviews items => setPendingPreviews (fun _ => items) s
  | UpdatePendingPreviews f => setPendingPreviews f s
  end.

Definition applyUpdates (us : list Update) (s : AppState) : AppState :=
  fold_left applyUpdate us s.

(** What the handler of [e] enqueues when it was created by the render of
    [rendered]: [toggleSystem] passes a value computed from the rendered
    flag (line 136), approve and reject pass an updater (lines 140, 146), the
    effect passes the literal array (line 104). *)
Definition enqueued (rendered : AppState) (e : Event) : list Update :=
  match e with
  | Mounted => [StorePendingPreviews loadedPreviews]
  | ToggleClicked => [SetIsSystemRunning (negb (isSystemRunning rendered))]
  | ApproveClicked contentId => [UpdatePendingPreviews (withoutId contentId)]
  | RejectClicked contentId => [UpdatePendingPreviews (withoutId contentId)]
  | TabSelected tab => [SetActiveTab tab]
  end.

(** The state after the handlers of [es], all created by the render of
    [rendered], ran one after the other and the queue was applied. *)
Definition batch (es : list Event) (rendered : AppState) : AppState :=
  applyUpdates (flat_map (enqueued rendered) es) rendered.

(** ** Reading a sequence of events *)

Definition isToggle (e : Event) : bool :=
  match e with
  | ToggleClicked => true
  | _ => false
  end.

Definition isMounted (e : Event) : bool :=
  match e with
  | Mounted => true
  | _ => false
  end.

(** The ids approved or rejected by a sequence of events. *)
Fixpoint resolvedIds (es : list Event) : list string :=
  match es with
  | [] => []
  | ApproveClicked contentId :: es' => contentId :: resolvedIds es'
  | RejectClicked contentId :: es' => contentId :: resolvedIds es'
  | _ :: es' => resolvedIds es'
  end.

(** The number of clicks on the header button. *)
Definition toggleCount (es : list Event) : nat :=
  List.length (filter isToggle es).

(** The tab selected last, or [current] when none was. *)
Fixpoint lastTab (es : list Event) (current : string) : string :=
  match es with
  | [] => current
  | TabSelected tab :: es' => lastTab es' tab
  | _ :: es' => lastTab es' current
  end.

(** The items whose id is not among [ids], in list order. *)
Definition unresolved (ids : list string) (items : list ContentItem.t)
  : list ContentItem.t :=
  filter (fun item => negb (existsb (String.eqb (ContentItem.id item)) ids)) items.

(** How many items carry the id. *)
Definition occurrences (contentId : string) (items : list ContentItem.t) : nat :=
  List.length
    (filter (fun item => Js.strict_eq (ContentItem.id item) contentId) items).

(** ** Numbers as the page computes them *)

Module Number.

(** A JavaScript number holding the integer [z] (exact below 2^53). *)
Definition ofZ (z : Z) : float :=
  if z <? 0
  then PrimFloat.opp (PrimFloat.of_uint63 (Uint63.of_Z (- z)))
  else PrimFloat.of_uint63 (Uint63.of_Z z).

(** [(published / generated) * 100] (lines 349, 487, 491). *)
Definition percentage (published generated : Z) : float :=
  PrimFloat.mul (PrimFloat.div (ofZ published) (ofZ generated)) (ofZ 100).

(** [Math.round]: the nearest integer, a tie going up; NaN and the infinities
    have no integer (the page would print them as they are). *)
Definition mathRound (x : float) : option Z :=
  match FloatOps.Prim2SF x with
  | SpecFloat.S754_zero _ => Some 0
  | SpecFloat.S754_finite negative m e =>
      let n := if negative then Z.neg m else Z.pos m in
      if 0 <=? e
      then Some (n * 2 ^ e)
      else Some ((2 * n + 2 ^ (- e)) / 2 ^ (- e + 1))
  | _ => None
  end.

(** [0 <= x && x <= 100]; false for NaN. *)
Definition withinBar (x : float) : bool :=
  PrimFloat.leb (ofZ 0) x && PrimFloat.leb x (ofZ 100).

End Number.

(** ** What the page renders *)

(** The lucide icons the page picks between. *)
Inductive Icon : Type :=
| Smartphone
| Video
| Image
| FileText
| Pause
| Play.

(** [getChannelIcon] (lines 151-153). *)
Definition getChannelIcon (platform : string) : Icon :=
  if Js.strict_eq platform "TikTok" then Smartphone else Video.

(** [getMediaIcon] (lines 155-161). *)
Definition getMediaIcon (mediaType : string) : Icon :=
  if Js.strict_eq mediaType "video" then Video
  else if Js.strict_eq mediaType "image" then Image
  else FileText.

(** The status badge and the button of the header (lines 176-189). *)
Record HeaderView : Type := mkHeaderView {
  statusVariant : string;
  statusText : string;
  buttonVariant : string;
  buttonIcon : Icon;
  buttonText : string;
  buttonOnClick : Event
}.

Definition renderHeader (s : AppState) : HeaderView :=
  {| statusVariant := if isSystemRunning s then "default" else "secondary";
     statusText := if isSystemRunning s then "النظام يعمل" else "النظام متوقف";
     buttonVariant := if isSystemRunning s then "destructive" else "default";
     buttonIcon := if isSystemRunning s then Pause else Play;
     buttonText := if isSystemRunning s then "إيقاف النظام" else "تشغيل النظام";
     buttonOnClick := ToggleClicked |}.

(** A card of the channels tab (lines 316-362).  The figures printed with
    [toLocaleString] are kept as numbers. *)
Record ChannelCard : Type := mkChannelCard {
  channelKey : string;
  channelIcon : Icon;
  channelTitle : string;
  channelBadgeVariant : string;
  channelBadgeText : string;
  channelDescription : string;
  channelFollowers : Z;
  channelViews : Z;
  channelRevenue : cents;
  channelPublished : Z;
  channelGenerated : Z;
  channelProgress : float
}.

Definition renderChannelCard (channel : Channel.t) : ChannelCard :=
  {| channelKey := Channel.id channel;
     channelIcon := getChannelIcon (Channel.platform channel);
     channelTitle := Channel.name channel;
     channelBadgeVariant :=
       if Js.strict_eq (Channel.status channel) "active"
       then "default" else "secondary";
     channelBadgeText :=
       if Js.strict_eq (Channel.status channel) "active"
       then "نشط" else "متوقف";
     channelDescription := Channel.platform channel;
     channelFollowers := Channel.followers channel;
     channelViews := Channel.todayViews channel;
     channelRevenue := Channel.revenue channel;
     channelPublished := Channel.publishedToday channel;
     channelGenerated := Channel.contentGenerated channel;
     channelProgress :=
       Number.percentage (Channel.publishedToday channel)
                         (Channel.contentGenerated channel) |}.

Definition renderChannelsTab (s : AppState) : list ChannelCard :=
  map renderChannelCard (channels s).

(** A card of the preview tab (lines 387-428) with the events its two buttons
    raise. *)
Record PreviewCard : Type := mkPreviewCard {
  previewKey : string;
  previewIcon : Icon;
  previewTitle : string;
  previewBadge : option string;
  previewTimeLeft : string;
  previewBody : string;
  previewScheduled : string;
  onRejectClick : Event;
  onApproveClick : Event
}.

Definition renderPreviewCard (s : AppState) (content : ContentItem.t) : PreviewCard :=
  {| previewKey := ContentItem.id content;
     previewIcon := getMediaIcon (ContentItem.mediaType content);
     previewTitle := ContentItem.title content;
     previewBadge := channelBadge s content;
     previewTimeLeft := ContentItem.timeLeft content;
     previewBody := ContentItem.content content;
     previewScheduled := ContentItem.scheduledTime content;
     onRejectClick := RejectClicked (ContentItem.id content);
     onApproveClick := ApproveClicked (ContentItem.id content) |}.

(** The body of the preview tab: a notice when [pendingPreviews.length === 0],
    the cards otherwise (lines 379-431). *)
Inductive PreviewTab : Type :=
| EmptyNotice
| Cards (cards : list PreviewCard).

Definition renderPreviewTab (s : AppState) : PreviewTab :=
  if (Z.of_nat (List.length (pendingPreviews s)) =? 0)
  then EmptyNotice
  else Cards (map (renderPreviewCard s) (pendingPreviews s)).

(** The cards on screen, none under the notice. *)
Definition cardsShown (s : AppState) : list PreviewCard :=
  match renderPreviewTab s with
  | EmptyNotice => []
  | Cards cards => cards
  end.

(** The production panel of the analytics tab (lines 464-495). *)
Record ProductionPanel : Type := mkProductionPanel {
  panelGenerated : Z;
  panelPublished : Z;
  panelPending : Z;
  panelScheduled : Z;
  panelProgress : float;
  panelRate : option Z
}.

Definition renderProductionPanel (s : AppState) : ProductionPanel :=
  let stats := systemStats s in
  let percent :=
    Number.percentage (SystemStats.publishedToday stats)
                      (SystemStats.contentGenerated stats) in
  {| panelGenerated := SystemStats.contentGenerated stats;
     panelPublished := SystemStats.publishedToday stats;
     panelPending := Z.of_nat (List.length (pendingPreviews s));
     panelScheduled := SystemStats.scheduledContent stats;
     panelProgress := percent;
     panelRate := Number.mathRound percent |}.

(** * Properties *)

(** ** The filter behind approve and reject *)

Section WithoutId.

Variable contentId : string.

Lemma withoutId_nil : withoutId contentId [] = [].
Proof. reflexivity. Qed.

Lemma withoutId_cons_same (item : ContentItem.t) (rest : list ContentItem.t) :
  ContentItem.id item = contentId ->
  withoutId contentId (item :: rest) = withoutId contentId rest.
Proof.
  intros Hid. unfold withoutId, Js.array_filter, Js.strict_neq. simpl.
  rewrite Hid, String.eqb_refl. reflexivity.
Qed.

Lemma withoutId_cons_other (item : ContentItem.t) (rest : list ContentItem.t) :
  ContentItem.id item <> contentId ->
  withoutId contentId (item :: rest) = item :: withoutId contentId rest.
Proof.
  intros Hid. unfold withoutId, Js.array_filter, Js.strict_neq. simpl.
  apply String.eqb_neq in Hid. rewrite Hid. reflexivity.
Qed.

(** Membership after the filter. *)
Lemma withoutId_In (item : ContentItem.t) (prev : list ContentItem.t) :
  In item (withoutId contentId prev) <->
  In item prev /\ ContentItem.id item <> contentId.
Proof.
  unfold withoutId, Js.array_filter, Js.strict_neq.
  rewrite filter_In, negb_true_iff, String.eqb_neq. reflexivity.
Qed.

(** The id is gone after the filter. *)
Lemma withoutId_removes (prev : list ContentItem.t) :
  ~ In contentId (map ContentItem.id (withoutId contentId prev)).
Proof.
  intros Hin. apply in_map_iff in Hin as [item [Hid Hitem]].
  apply withoutId_In in Hitem. tauto.
Qed.

(** A list that does not hold the id passes the filter whole. *)
Lemma withoutId_absent (prev : list ContentItem.t) :
  ~ In contentId (map ContentItem.id prev) ->
  withoutId contentId prev = prev.
Proof.
  induction prev as [| item rest IH]; intros Habs.
  - reflexivity.
  - simpl in Habs.
    rewrite withoutId_cons_other by tauto.
    f_equal. apply IH. tauto.
Qed.

(** The filter is idempotent. *)
Lemma withoutId_idempotent (prev : list ContentItem.t) :
  withoutId contentId (withoutId contentId prev) = withoutId contentId prev.
Proof. apply withoutId_absent, withoutId_removes. Qed.

(** With unique ids the filter takes out one item and keeps the two sides of
    the list around it. *)
Lemma withoutId_split (prev : list ContentItem.t) :
  NoDup (map ContentItem.id prev) ->
  In contentId (map ContentItem.id prev) ->
  exists before item after,
    prev = before ++ item :: after /\
    ContentItem.id item = contentId /\
    withoutId contentId prev = before ++ after.
Proof.
  induction prev as [| x rest IH]; intros Hnd Hin.
  - contradiction.
  - simpl in Hnd. inversion Hnd as [| ? ? Hx Hrest]; subst.
    destruct (String.string_dec (ContentItem.id x) contentId) as [Heq | Hne].
    + exists [], x, rest. repeat split; try assumption.
      rewrite withoutId_cons_same by assumption.
      apply withoutId_absent. rewrite <- Heq. assumption.
    + destruct Hin as [Hhead | Htail]; [contradiction |].
      destruct (IH Hrest Htail) as (before & item & after & Hprev & Hid & Hout).
      exists (x :: before), item, after. repeat split; try assumption.
      * simpl. rewrite Hprev. reflexivity.
      * rewrite withoutId_cons_other by assumption.
        simpl. rewrite Hout. reflexivity.
Qed.

(** Without the uniqueness of ids, every item with the id goes and the rest
    stays in order: the result is a filter of the list. *)
Lemma withoutId_all_occurrences (before after : list ContentItem.t) :
  withoutId contentId (before ++ after)
  = withoutId contentId before ++ withoutId contentId after.
Proof. unfold withoutId, Js.array_filter. apply filter_app. Qed.

Lemma withoutId_NoDup (prev : list ContentItem.t) :
  NoDup (map ContentItem.id prev) ->
  NoDup (map ContentItem.id (withoutId contentId prev)).
Proof.
  induction prev as [| x rest IH]; intros Hnd.
  - constructor.
  - simpl in Hnd. inversion Hnd as [| ? ? Hx Hrest]; subst.
    destruct (String.string_dec (ContentItem.id x) contentId) as [Heq | Hne].
    + rewrite withoutId_cons_same by assumption. auto.
    + rewrite withoutId_cons_other by assumption. simpl.
      constructor; [| auto].
      intros Hin. apply Hx.
      apply in_map_iff in Hin as [y [Hy Hiny]].
      apply withoutId_In in Hiny as [Hiny _].
      apply in_map_iff. exists y. auto.
Qed.

Lemma withoutId_StronglySorted (R : ContentItem.t -> ContentItem.t -> Prop)
    (prev : list ContentItem.t) :
  StronglySorted R prev -> StronglySorted R (withoutId contentId prev).
Proof.
  induction 1 as [| x rest Hsorted IH Hall].
  - constructor.
  - destruct (String.string_dec (ContentItem.id x) contentId) as [Heq | Hne].
    + rewrite withoutId_cons_same by assumption. exact IH.
    + rewrite withoutId_cons_other by assumption.
      constructor; [exact IH |].
      rewrite Forall_forall in *. intros y Hy.
      apply withoutId_In in Hy as [Hy _]. auto.
Qed.

End WithoutId.

(** ** Frame: what each event leaves alone *)

Lemma handle_channels (e : Event) (s : AppState) :
  channels (next (handle e s)) = channels s.
Proof. destruct e; reflexivity. Qed.

Lemma handle_systemStats (e : Event) (s : AppState) :
  systemStats (next (handle e s)) = systemStats s.
Proof. destruct e; reflexivity. Qed.

(** No event throws: every handler returns [undefined]. *)
Lemma handle_returns_undefined (e : Event) (s : AppState) :
  result (handle e s) = Js.Return Js.Undefined.
Proof. destruct e; reflexivity. Qed.

(** The pending list after an event: reloaded, filtered, or untouched. *)
Lemma handle_pendingPreviews (e : Event) (s : AppState) :
  pendingPreviews (next (handle e s)) = loadedPreviews \/
  pendingPreviews (next (handle e s)) = pendingPreviews s \/
  exists contentId,
    pendingPreviews (next (handle e s)) = withoutId contentId (pendingPreviews s).
Proof.
  destruct e; simpl; auto; right; right; eexists; reflexivity.
Qed.

Lemma setPendingPreviews_same (f : list ContentItem.t -> list ContentItem.t)
    (s : AppState) :
  f (pendingPreviews s) = pendingPreviews s -> setPendingPreviews f s = s.
Proof.
  intros Hf. destruct s. unfold setPendingPreviews. simpl in *.
  rewrite Hf. reflexivity.
Qed.

(** ** Reachable states *)

Lemma run_reachable (es : list Event) :
  forall s, reachable s -> reachable (run es s).
Proof.
  induction es as [| e es IH]; intros s Hs; simpl.
  - exact Hs.
  - apply IH. apply reach_step. exact Hs.
Qed.

Lemma loadedState_reachable : reachable loadedState.
Proof. apply (run_reachable [Mounted]). apply reach_init. Qed.

Lemma reachable_channels (s : AppState) :
  reachable s -> channels s = initialChannels.
Proof.
  induction 1 as [| s e Hs IH].
  - reflexivity.
  - rewrite handle_channels. exact IH.
Qed.

Lemma reachable_systemStats (s : AppState) :
  reachable s -> systemStats s = initialSystemStats.
Proof.
  induction 1 as [| s e Hs IH].
  - reflexivity.
  - rewrite handle_systemStats. exact IH.
Qed.

(** Induction over what can happen to the pending list. *)
Lemma reachable_pending_ind (P : list ContentItem.t -> Prop) :
  P [] ->
  P loadedPreviews ->
  (forall contentId prev, P prev -> P (withoutId contentId prev)) ->
  forall s, reachable s -> P (pendingPreviews s).
Proof.
  intros Hnil Hload Hfilter s Hs.
  induction Hs as [| s e Hs IH].
  - exact Hnil.
  - destruct (handle_pendingPreviews e s) as [Heq | [Heq | [contentId Heq]]];
      rewrite Heq; auto.
Qed.

(** Ids stay unique. *)
Lemma reachable_ids_unique (s : AppState) :
  reachable s -> NoDup (pendingIds s).
Proof.
  unfold pendingIds.
  apply (reachable_pending_ind (fun l => NoDup (map ContentItem.id l))).
  - constructor.
  - repeat constructor; simpl; intuition discriminate.
  - intros contentId prev. apply withoutId_NoDup.
Qed.

(** ** Approve and reject *)

(** The two handlers store the same state; only the console line tells them
    apart. *)
Lemma approve_reject_console_differ (contentId : string) (s : AppState) :
  console (approveContent contentId s) <> console (rejectContent contentId s).
Proof. simpl. intros H. inversion H. Qed.

(** C9: for every id and every state, approveContent and rejectContent leave
    exactly the same stored state behind, the pending list included. *)
Theorem approve_reject_same_state (contentId : string) (s : AppState) :
  next (approveContent contentId s) = next (rejectContent contentId s) /\
  pendingPreviews (next (approveContent contentId s))
  = pendingPreviews (next (rejectContent contentId s)).
Proof. split; reflexivity. Qed.

(** C10: for an id the pending list does not hold, approveContent and
    rejectContent leave the state, the pending list included, exactly as it
    was and return normally; an id taken out by an earlier call is such an id
    (lemma [withoutId_removes]), so a repeated call is a no-op. *)
Theorem resolve_absent_id_noop (contentId : string) (s : AppState) :
  ~ In contentId (pendingIds s) ->
  (next (approveContent contentId s) = s /\
   pendingPreviews (next (approveContent contentId s)) = pendingPreviews s /\
   result (approveContent contentId s) = Js.Return Js.Undefined) /\
  (next (rejectContent contentId s) = s /\
   pendingPreviews (next (rejectContent contentId s)) = pendingPreviews s /\
   result (rejectContent contentId s) = Js.Return Js.Undefined).
Proof.
  intros Habs.
  assert (Hsame : withoutId contentId (pendingPreviews s) = pendingPreviews s)
    by (apply withoutId_absent; exact Habs).
  repeat split; simpl; try exact Hsame;
    apply setPendingPreviews_same; exact Hsame.
Qed.

(** After either call the id is absent, whatever the list held. *)
Lemma resolved_id_absent (contentId : string) (s : AppState) :
  ~ In contentId (pendingIds (next (approveContent contentId s))) /\
  ~ In contentId (pendingIds (next (rejectContent contentId s))).
Proof. split; apply withoutId_removes. Qed.

(** Repeating a call changes nothing more. *)
Lemma resolve_twice (contentId : string) (s : AppState) :
  next (approveContent contentId (next (approveContent contentId s)))
  = next (approveContent contentId s) /\
  next (rejectContent contentId (next (rejectContent contentId s)))
  = next (rejectContent contentId s).
Proof.
  split; apply setPendingPreviews_same; apply withoutId_idempotent.
Qed.

Lemma resolve_absent_id_noop_witness :
  let s := next (approveContent "preview_1" loadedState) in
  ~ In "preview_1" (pendingIds s) /\
  ((next (approveContent "preview_1" s) = s /\
    pendingPreviews (next (approveContent "preview_1" s)) = pendingPreviews s /\
    result (approveContent "preview_1" s) = Js.Return Js.Undefined) /\
   (next (rejectContent "preview_1" s) = s /\
    pendingPreviews (next (rejectContent "preview_1" s)) = pendingPreviews s /\
    result (rejectContent "preview_1" s) = Js.Return Js.Undefined)).
Proof.
  assert (Habs : ~ In "preview_1"
                   (pendingIds (next (approveContent "preview_1" loadedState)))).
  { vm_compute. intuition discriminate. }
  split.
  - exact Habs.
  - exact (resolve_absent_id_noop "preview_1"
             (next (approveContent "preview_1" loadedState)) Habs).
Defined.

(** C1, as stated, fails: after approve("preview_1") the call
    reject("preview_1") returns normally; no handler of App.jsx throws. *)
Lemma reject_after_approve_does_not_fail :
  ~ rejectAfterApproveFails "preview_1" loadedState.
Proof.
  unfold rejectAfterApproveFails. intros H.
  destruct (H eq_refl) as [Hthrow _]. discriminate Hthrow.
Qed.

(** C1, amended: approve(id) always returns normally, and a following
    reject(id) returns normally too (no error is signalled) and leaves the
    whole stored state, the pending list included, unchanged. *)
Theorem reject_after_approve_silent_noop (contentId : string) (s : AppState) :
  let s1 := next (approveContent contentId s) in
  result (approveContent contentId s) = Js.Return Js.Undefined /\
  result (rejectContent contentId s1) = Js.Return Js.Undefined /\
  next (rejectContent contentId s1) = s1 /\
  pendingPreviews (next (rejectContent contentId s1)) = pendingPreviews s1.
Proof.
  simpl. repeat split.
  - apply setPendingPreviews_same. apply withoutId_idempotent.
  - apply withoutId_idempotent.
Qed.

(** C4: in a reachable state, approving an id of the pending list takes out
    exactly the item with that id, keeps every other item as it is and in its
    place relative to the others, and changes neither the channels, the
    statistics, the run flag nor the active tab. *)
Theorem approve_removes_exactly (contentId : string) (s : AppState) :
  reachable s ->
  In contentId (pendingIds s) ->
  let s' := next (approveContent contentId s) in
  (exists before item after,
      pendingPreviews s = before ++ item :: after /\
      ContentItem.id item = contentId /\
      pendingPreviews s' = before ++ after) /\
  channels s' = channels s /\
  systemStats s' = systemStats s /\
  isSystemRunning s' = isSystemRunning s /\
  activeTab s' = activeTab s.
Proof.
  intros Hreach Hin. simpl. repeat split.
  apply withoutId_split.
  - apply reachable_ids_unique. exact Hreach.
  - exact Hin.
Qed.

Lemma approve_removes_exactly_witness :
  let s := loadedState in
  let s' := next (approveContent "preview_2" s) in
  reachable s /\
  In "preview_2" (pendingIds s) /\
  ((exists before item after,
       pendingPreviews s = before ++ item :: after /\
       ContentItem.id item = "preview_2" /\
       pendingPreviews s' = before ++ after) /\
   channels s' = channels s /\
   systemStats s' = systemStats s /\
   isSystemRunning s' = isSystemRunning s /\
   activeTab s' = activeTab s).
Proof.
  assert (Hin : In "preview_2" (pendingIds loadedState)).
  { vm_compute. auto. }
  split; [exact loadedState_reachable |].
  split; [exact Hin |].
  exact (approve_removes_exactly "preview_2" loadedState
           loadedState_reachable Hin).
Defined.

(** The same holds for reject. *)
Lemma reject_removes_exactly (contentId : string) (s : AppState) :
  reachable s ->
  In contentId (pendingIds s) ->
  exists before item after,
    pendingPreviews s = before ++ item :: after /\
    ContentItem.id item = contentId /\
    pendingPreviews (next (rejectContent contentId s)) = before ++ after.
Proof.
  intros Hreach Hin. apply withoutId_split.
  - apply reachable_ids_unique. exact Hreach.
  - exact Hin.
Qed.

(** ** The run switch *)

(** C5, as stated, fails: toggleSystem has a block body without a return
    statement, so the caller receives [undefined], not the new run state. *)
Lemma toggle_returns_no_run_state : ~ toggleReturnsRunState initialState.
Proof.
  unfold toggleReturnsRunState. intros [_ Hret]. discriminate Hret.
Qed.

(** C5, amended: toggleSystem sets the run flag to its opposite, changes
    nothing else, and returns [undefined]; the new run state is read from
    [isSystemRunning]. *)
Theorem toggle_flips_run_flag (s : AppState) :
  let s' := next (toggleSystem s) in
  isSystemRunning s' = negb (isSystemRunning s) /\
  result (toggleSystem s) = Js.Return Js.Undefined /\
  pendingPreviews s' = pendingPreviews s /\
  channels s' = channels s /\
  systemStats s' = systemStats s /\
  activeTab s' = activeTab s.
Proof. simpl. repeat split. Qed.

(** X8: two toggles bring the state back. *)
Lemma toggle_twice (s : AppState) :
  next (toggleSystem (next (toggleSystem s))) = s.
Proof.
  destruct s as [tab running pending chans stats].
  unfold toggleSystem, setIsSystemRunning. simpl.
  rewrite negb_involutive. reflexivity.
Qed.

(** ** The statistics projection *)

(** C2, as stated, fails: once the previews are loaded three items are pending
    while [systemStats.pendingPreviews] is 8. *)
Lemma stats_projection_inconsistent : ~ projectionConsistent loadedState.
Proof.
  unfold projectionConsistent. intros H.
  apply (f_equal r_pendingPreviews) in H. vm_compute in H. discriminate H.
Qed.

(** The counter is not tied to the list in the initial state either. *)
Lemma stats_projection_inconsistent_initially :
  ~ projectionConsistent initialState.
Proof.
  unfold projectionConsistent. intros H.
  apply (f_equal r_pendingPreviews) in H. vm_compute in H. discriminate H.
Qed.

(** C2, amended: in every reachable state totalViews, totalRevenue (in exact
    cents), totalFollowers, contentGenerated and publishedToday of
    [systemStats] are the sums over the channels; [systemStats] itself is never
    updated, so its [pendingPreviews] field keeps its initial value, and the
    pending count the page shows is the length of the pending list. *)
Theorem channel_sums_consistent (s : AppState) :
  reachable s ->
  channelSumsConsistent s /\
  systemStats s = initialSystemStats /\
  pendingShown s = r_pendingPreviews (recomputeStats s).
Proof.
  intros Hreach.
  pose proof (reachable_channels s Hreach) as Hch.
  pose proof (reachable_systemStats s Hreach) as Hst.
  split; [| split; [exact Hst | reflexivity]].
  unfold channelSumsConsistent, recomputeStats, maintainedStats. simpl.
  rewrite Hch, Hst. vm_compute. repeat split.
Qed.

Lemma channel_sums_consistent_witness :
  let s := run [Mounted; ApproveClicked "preview_1"; ToggleClicked] initialState in
  reachable s /\
  (channelSumsConsistent s /\
   systemStats s = initialSystemStats /\
   pendingShown s = r_pendingPreviews (recomputeStats s)).
Proof.
  assert (Hreach : reachable
            (run [Mounted; ApproveClicked "preview_1"; ToggleClicked] initialState)).
  { apply run_reachable. apply reach_init. }
  split; [exact Hreach |].
  exact (channel_sums_consistent _ Hreach).
Defined.

(** Read as IEEE doubles and added left to right, the five revenue literals do
    not give the literal of [totalRevenue]: the sum is one unit in the last
    place below it.  The equality of C2 for totalRevenue is one of decimals. *)
Lemma revenue_sum_inexact_in_binary64 :
  PrimFloat.eqb (Binary64.sumLeftToRight Binary64.revenues) Binary64.totalRevenue
  = false.
Proof. vm_compute. reflexivity. Qed.

(** ** The per-channel published counter *)

(** C3, as stated, fails: the page holds one item of channel horror_stories,
    so whichever items are taken to be Published, their number is at most 1,
    and the channel's publishedToday is 3. *)
Lemma published_counter_not_derived :
  ~ exists label, publishedCounterDerived label loadedState.
Proof.
  intros [label H].
  specialize (H horror_stories (or_introl eq_refl)).
  unfold publishedCount in H. simpl in H.
  destruct (isPublished (label preview_1)); simpl in H; discriminate H.
Qed.

(** C3, amended: in every reachable state each channel's publishedToday is the
    value it was created with; no event changes it and it is not computed from
    the content items. *)
Theorem published_counters_fixed (s : AppState) :
  reachable s ->
  publishedCounters s
  = [("horror_stories", 3); ("islamic_stories", 4); ("home_design", 2);
     ("motivation", 5); ("ai_chef", 3)].
Proof.
  intros Hreach. unfold publishedCounters.
  rewrite (reachable_channels s Hreach). reflexivity.
Qed.

Lemma published_counters_fixed_witness :
  let s := run [Mounted; ApproveClicked "preview_1"; RejectClicked "preview_3"]
               initialState in
  reachable s /\
  publishedCounters s
  = [("horror_stories", 3); ("islamic_stories", 4); ("home_design", 2);
     ("motivation", 5); ("ai_chef", 3)].
Proof.
  assert (Hreach : reachable
            (run [Mounted; ApproveClicked "preview_1"; RejectClicked "preview_3"]
                 initialState)).
  { apply run_reachable. apply reach_init. }
  split; [exact Hreach |].
  exact (published_counters_fixed _ Hreach).
Defined.

(** ** The order of the pending list *)

Lemma StronglySorted_weaken {A : Type} (R S : A -> A -> Prop) (l : list A) :
  (forall a b, R a b -> S a b) ->
  StronglySorted R l -> StronglySorted S l.
Proof.
  intros Hsub. induction 1 as [| x rest Hsorted IH Hall].
  - constructor.
  - constructor; [exact IH |].
    eapply Forall_impl; [| exact Hall]. intros b. apply Hsub.
Qed.

(** An earlier scheduled time decides the order before any tie-break. *)
Lemma scheduledBefore_queueLeb (generatedAt : ContentItem.t -> Z)
    (a b : ContentItem.t) :
  scheduledBefore a b -> queueLeb generatedAt a b = true.
Proof.
  intros (ta & tb & Ha & Hb & Hlt). unfold queueLeb. rewrite Ha, Hb.
  apply Z.ltb_lt in Hlt. rewrite Hlt. reflexivity.
Qed.

Lemma loadedPreviews_scheduled_ascending :
  StronglySorted scheduledBefore loadedPreviews.
Proof.
  assert (H12 : scheduledBefore preview_1 preview_2)
    by (exists 1320, 1335; repeat split; reflexivity).
  assert (H13 : scheduledBefore preview_1 preview_3)
    by (exists 1320, 1350; repeat split; reflexivity).
  assert (H23 : scheduledBefore preview_2 preview_3)
    by (exists 1335, 1350; repeat split; reflexivity).
  unfold loadedPreviews. repeat constructor; assumption.
Qed.

(** The scheduled times of the pending list are strictly ascending: the array
    the effect stores is, and the filter keeps the order. *)
Lemma reachable_scheduled_ascending (s : AppState) :
  reachable s -> StronglySorted scheduledBefore (pendingPreviews s).
Proof.
  apply (reachable_pending_ind (StronglySorted scheduledBefore)).
  - constructor.
  - exact loadedPreviews_scheduled_ascending.
  - intros contentId prev. apply withoutId_StronglySorted.
Qed.

(** C6: in every reachable state the pending list is in ascending order of
    scheduled time, ties going to the earlier generation timestamp and then to
    the smaller id, whatever the generation timestamps are. *)
Theorem pending_list_ordered (generatedAt : ContentItem.t -> Z) (s : AppState) :
  reachable s -> queueOrdered generatedAt (pendingPreviews s).
Proof.
  intros Hreach. unfold queueOrdered.
  apply StronglySorted_weaken with (R := scheduledBefore).
  - intros a b. apply scheduledBefore_queueLeb.
  - apply reachable_scheduled_ascending. exact Hreach.
Qed.

Lemma pending_list_ordered_witness :
  let s := run [Mounted; RejectClicked "preview_2"] initialState in
  reachable s /\ queueOrdered (fun _ => 0) (pendingPreviews s).
Proof.
  assert (Hreach : reachable (run [Mounted; RejectClicked "preview_2"] initialState)).
  { apply run_reachable. apply reach_init. }
  split; [exact Hreach |].
  exact (pending_list_ordered (fun _ => 0) _ Hreach).
Defined.

(** The order is that of the stored array, not the work of a sort: a list
    stored out of order stays out of order under approve. *)
Lemma approve_does_not_sort :
  let s := setPendingPreviews (fun _ => [preview_3; preview_1; preview_2]) initialState in
  pendingPreviews (next (approveContent "preview_2" s)) = [preview_3; preview_1].
Proof. reflexivity. Qed.

(** ** Referential integrity *)

Lemma findChannel_frame (e : Event) (s : AppState) (content : ContentItem.t) :
  findChannel (next (handle e s)) content = findChannel s content.
Proof. unfold findChannel. rewrite handle_channels. reflexivity. Qed.

(** A lookup that succeeds returns a channel of the registry with the id asked
    for. *)
Lemma findChannel_sound (s : AppState) (content : ContentItem.t) (c : Channel.t) :
  findChannel s content = Some c ->
  In c (channels s) /\ Channel.id c = ContentItem.channelId content.
Proof.
  unfold findChannel, Js.array_find, Js.strict_eq. intros Hfind.
  apply find_some in Hfind as [Hin Heq].
  split; [exact Hin | apply String.eqb_eq; exact Heq].
Qed.

Lemma resolves_frame (e : Event) (s : AppState) (content : ContentItem.t) :
  resolves s content -> resolves (next (handle e s)) content.
Proof.
  intros (c & Hfind & Hin & Hid). exists c.
  rewrite findChannel_frame, handle_channels. auto.
Qed.

(** The three loaded previews name channels of the initial registry. *)
Lemma loadedPreviews_resolve (s : AppState) (content : ContentItem.t) :
  channels s = initialChannels ->
  In content loadedPreviews ->
  resolves s content.
Proof.
  intros Hch Hin. unfold resolves.
  assert (Hfound : exists c, findChannel s content = Some c).
  { unfold findChannel. rewrite Hch.
    destruct Hin as [<- | [<- | [<- | []]]]; eexists; reflexivity. }
  destruct Hfound as [c Hfind]. exists c.
  split; [exact Hfind | apply findChannel_sound; exact Hfind].
Qed.

(** C7: in the initial state and after every sequence of events (mount,
    approve, reject, toggleSystem, tab selection) the channelId of every
    pending content item is the id of a channel of the registry, found by the
    lookup the page uses. *)
Theorem referential_integrity (s : AppState) :
  reachable s -> referentialIntegrity s.
Proof.
  induction 1 as [| s e Hreach IH]; unfold referentialIntegrity in *.
  - intros content [].
  - intros content Hin.
    destruct (handle_pendingPreviews e s) as [Heq | [Heq | [contentId Heq]]];
      rewrite Heq in Hin.
    + apply loadedPreviews_resolve; [| exact Hin].
      rewrite handle_channels. apply reachable_channels. exact Hreach.
    + apply resolves_frame. auto.
    + apply resolves_frame. apply withoutId_In in Hin as [Hin _]. auto.
Qed.

Lemma referential_integrity_witness :
  let s := run [Mounted; ToggleClicked; ApproveClicked "preview_3"] initialState in
  reachable s /\ referentialIntegrity s.
Proof.
  assert (Hreach : reachable
            (run [Mounted; ToggleClicked; ApproveClicked "preview_3"] initialState)).
  { apply run_reachable. apply reach_init. }
  split; [exact Hreach |].
  exact (referential_integrity _ Hreach).
Defined.

(** The badges the page shows for the three loaded previews. *)
Example loaded_badges :
  map (fun content => option_map Channel.id (findChannel loadedState content))
      (pendingPreviews loadedState)
  = [Some "horror_stories"; Some "ai_chef"; Some "motivation"].
Proof. reflexivity. Qed.

(** ** The review window gate *)

(** C8: when the publish boundary is the window end, the end instant is
    outside the review window, the boundary instant is past the publish
    boundary, and no instant is both inside the window and past the
    boundary. *)
Theorem gate_boundary_one_sided (cfg : ReviewWindowGate.Config) :
  ReviewWindowGate.publishBoundary cfg = ReviewWindowGate.windowEnd cfg ->
  ReviewWindowGate.isReviewOpen cfg (ReviewWindowGate.windowEnd cfg) = false /\
  ReviewWindowGate.isPastPublishBoundary cfg (ReviewWindowGate.publishBoundary cfg)
  = true /\
  forall now,
    ~ (ReviewWindowGate.isReviewOpen cfg now = true /\
       ReviewWindowGate.isPastPublishBoundary cfg now = true).
Proof.
  intros Hsame.
  unfold ReviewWindowGate.isReviewOpen, ReviewWindowGate.isPastPublishBoundary.
  rewrite Hsame. repeat split.
  - rewrite Z.ltb_irrefl. apply andb_false_r.
  - apply Z.leb_refl.
  - intros now [Hopen Hpast].
    apply andb_true_iff in Hopen as [_ Hlt].
    apply Z.ltb_lt in Hlt. apply Z.leb_le in Hpast. lia.
Qed.

Lemma gate_boundary_one_sided_witness :
  let cfg := ReviewWindowGate.labelled in
  ReviewWindowGate.publishBoundary cfg = ReviewWindowGate.windowEnd cfg /\
  (ReviewWindowGate.isReviewOpen cfg (ReviewWindowGate.windowEnd cfg) = false /\
   ReviewWindowGate.isPastPublishBoundary cfg (ReviewWindowGate.publishBoundary cfg)
   = true /\
   forall now,
     ~ (ReviewWindowGate.isReviewOpen cfg now = true /\
        ReviewWindowGate.isPastPublishBoundary cfg now = true)).
Proof.
  split; [reflexivity |].
  exact (gate_boundary_one_sided ReviewWindowGate.labelled eq_refl).
Defined.

(** The window is not empty at its other end: the start instant and the minute
    before the end are inside it, and neither is past the boundary. *)
Example gate_labelled_inside :
  ReviewWindowGate.isReviewOpen ReviewWindowGate.labelled (21 * 60) = true /\
  ReviewWindowGate.isReviewOpen ReviewWindowGate.labelled (21 * 60 + 59) = true /\
  ReviewWindowGate.isPastPublishBoundary ReviewWindowGate.labelled (21 * 60 + 59)
  = false.
Proof. repeat split. Qed.

(** ** Sequences of approvals and rejections *)

Lemma withoutId_comm (a b : string) (items : list ContentItem.t) :
  withoutId a (withoutId b items) = withoutId b (withoutId a items).
Proof.
  induction items as [| x rest IH].
  - reflexivity.
  - destruct (String.string_dec (ContentItem.id x) a) as [Ha | Ha];
      destruct (String.string_dec (ContentItem.id x) b) as [Hb | Hb];
      repeat (first [ rewrite (withoutId_cons_same a) by assumption
                    | rewrite (withoutId_cons_same b) by assumption
                    | rewrite (withoutId_cons_other a) by assumption
                    | rewrite (withoutId_cons_other b) by assumption ]);
      try rewrite IH; reflexivity.
Qed.

(** X1: the order in which two previews are decided does not matter, whichever
    way each is decided: the stored state is the same. *)
Theorem decisions_commute (a b : string) (s : AppState) :
  next (approveContent a (next (rejectContent b s)))
  = next (rejectContent b (next (approveContent a s))) /\
  next (approveContent a (next (approveContent b s)))
  = next (approveContent b (next (approveContent a s))) /\
  next (rejectContent a (next (rejectContent b s)))
  = next (rejectContent b (next (rejectContent a s))).
Proof.
  assert (H : forall x y,
             setPendingPreviews (withoutId x) (setPendingPreviews (withoutId y) s)
             = setPendingPreviews (withoutId y) (setPendingPreviews (withoutId x) s)).
  { intros x y. unfold setPendingPreviews. simpl.
    rewrite (withoutId_comm x y). reflexivity. }
  repeat split; simpl; apply H.
Qed.

Lemma withoutId_length (contentId : string) (items : list ContentItem.t) :
  (List.length (withoutId contentId items) + occurrences contentId items
   = List.length items)%nat.
Proof.
  unfold occurrences, Js.strict_eq.
  induction items as [| x rest IH].
  - reflexivity.
  - destruct (String.string_dec (ContentItem.id x) contentId) as [Heq | Hne].
    + rewrite withoutId_cons_same by assumption. simpl.
      apply String.eqb_eq in Heq. rewrite Heq. simpl. lia.
    + rewrite withoutId_cons_other by assumption. simpl.
      apply String.eqb_neq in Hne. rewrite Hne. simpl. lia.
Qed.

(** X2: approve and reject shorten the pending list by exactly the number of
    items that carry the id, in any state; they never add an item. *)
Theorem decision_length (contentId : string) (s : AppState) :
  (List.length (pendingPreviews (next (approveContent contentId s)))
   + occurrences contentId (pendingPreviews s)
   = List.length (pendingPreviews s))%nat /\
  (List.length (pendingPreviews (next (rejectContent contentId s)))
   + occurrences contentId (pendingPreviews s)
   = List.length (pendingPreviews s))%nat.
Proof. split; simpl; apply withoutId_length. Qed.

Lemma run_app (es1 es2 : list Event) :
  forall s, run (es1 ++ es2) s = run es2 (run es1 s).
Proof.
  induction es1 as [| e es1 IH]; intros s; simpl.
  - reflexivity.
  - apply IH.
Qed.

Lemma unresolved_cons (contentId : string) (ids : list string)
    (items : list ContentItem.t) :
  unresolved (contentId :: ids) items = unresolved ids (withoutId contentId items).
Proof.
  unfold unresolved, withoutId, Js.array_filter, Js.strict_neq.
  induction items as [| x rest IH]; simpl in *.
  - reflexivity.
  - destruct (String.eqb (ContentItem.id x) contentId) eqn:Hx; simpl.
    + exact IH.
    + destruct (existsb (String.eqb (ContentItem.id x)) ids); simpl;
        rewrite IH; reflexivity.
Qed.

Lemma filter_all_pass {A : Type} (p : A -> bool) (l : list A) :
  (forall x, p x = true) -> filter p l = l.
Proof.
  intros Hp. induction l as [| x rest IH]; simpl.
  - reflexivity.
  - rewrite Hp, IH. reflexivity.
Qed.

Lemma unresolved_nil (items : list ContentItem.t) : unresolved [] items = items.
Proof. apply filter_all_pass. reflexivity. Qed.

(** Without a reload, the pending list after a sequence of events is the
    list before it without the items whose id was approved or rejected. *)
Lemma run_pending_unresolved (es : list Event) :
  forall s,
    forallb (fun e => negb (isMounted e)) es = true ->
    pendingPreviews (run es s) = unresolved (resolvedIds es) (pendingPreviews s).
Proof.
  induction es as [| e es IH]; intros s Hes; simpl in *.
  - symmetry. apply unresolved_nil.
  - apply andb_true_iff in Hes as [He Hes].
    rewrite (IH _ Hes).
    destruct e; simpl in *; try discriminate He; try reflexivity;
      rewrite unresolved_cons; reflexivity.
Qed.

Lemma unresolved_same_ids (ids ids' : list string) (items : list ContentItem.t) :
  (forall contentId, In contentId ids <-> In contentId ids') ->
  unresolved ids items = unresolved ids' items.
Proof.
  intros Hsame. unfold unresolved. apply filter_ext. intros item. f_equal.
  apply Bool.eq_iff_eq_true. rewrite !existsb_exists.
  split; intros [k [Hin Hk]]; exists k; (split; [apply Hsame; exact Hin | exact Hk]).
Qed.

Lemma unresolved_all (ids : list string) (items : list ContentItem.t) :
  incl (map ContentItem.id items) ids -> unresolved ids items = [].
Proof.
  unfold unresolved. induction items as [| x rest IH]; intros Hincl; simpl.
  - reflexivity.
  - assert (Hx : existsb (String.eqb (ContentItem.id x)) ids = true).
    { apply existsb_exists. exists (ContentItem.id x). split.
      - apply Hincl. left. reflexivity.
      - apply String.eqb_refl. }
    rewrite Hx. simpl. apply IH.
    intros k Hk. apply Hincl. right. exact Hk.
Qed.

(** X3: as long as the effect does not run again, the pending list after any
    sequence of clicks is the list before it without the items whose id was
    approved or rejected; two sequences that decide the same ids leave the
    same list, in whatever order and however often each id was clicked. *)
Theorem clicks_order_irrelevant (es es' : list Event) (s : AppState) :
  forallb (fun e => negb (isMounted e)) es = true ->
  forallb (fun e => negb (isMounted e)) es' = true ->
  (forall contentId, In contentId (resolvedIds es) <-> In contentId (resolvedIds es')) ->
  pendingPreviews (run es s) = unresolved (resolvedIds es) (pendingPreviews s) /\
  pendingPreviews (run es s) = pendingPreviews (run es' s).
Proof.
  intros Hes Hes' Hsame.
  rewrite (run_pending_unresolved es s Hes), (run_pending_unresolved es' s Hes').
  split; [reflexivity | apply unresolved_same_ids; exact Hsame].
Qed.

Lemma clicks_order_irrelevant_witness :
  let es := [ApproveClicked "preview_3"; ToggleClicked; RejectClicked "preview_1"] in
  let es' := [RejectClicked "preview_1"; ApproveClicked "preview_1";
              TabSelected "preview"; RejectClicked "preview_3"] in
  forallb (fun e => negb (isMounted e)) es = true /\
  forallb (fun e => negb (isMounted e)) es' = true /\
  (forall contentId, In contentId (resolvedIds es) <-> In contentId (resolvedIds es')) /\
  (pendingPreviews (run es loadedState)
   = unresolved (resolvedIds es) (pendingPreviews loadedState) /\
   pendingPreviews (run es loadedState) = pendingPreviews (run es' loadedState)).
Proof.
  assert (Hsame : forall contentId,
             In contentId
                (resolvedIds [ApproveClicked "preview_3"; ToggleClicked;
                              RejectClicked "preview_1"])
             <-> In contentId
                   (resolvedIds [RejectClicked "preview_1"; ApproveClicked "preview_1";
                                 TabSelected "preview"; RejectClicked "preview_3"])).
  { intros contentId. simpl. tauto. }
  split; [reflexivity |]. split; [reflexivity |]. split; [exact Hsame |].
  exact (clicks_order_irrelevant
           [ApproveClicked "preview_3"; ToggleClicked; RejectClicked "preview_1"]
           [RejectClicked "preview_1"; ApproveClicked "preview_1";
            TabSelected "preview"; RejectClicked "preview_3"]
           loadedState eq_refl eq_refl Hsame).
Defined.

(** X4: once every pending id has been approved or rejected, and the effect did
    not run again, the list is empty and the preview tab shows its notice
    instead of cards. *)
Theorem deciding_all_shows_notice (es : list Event) (s : AppState) :
  forallb (fun e => negb (isMounted e)) es = true ->
  incl (pendingIds s) (resolvedIds es) ->
  pendingPreviews (run es s) = [] /\
  renderPreviewTab (run es s) = EmptyNotice.
Proof.
  intros Hes Hall.
  assert (Hempty : pendingPreviews (run es s) = []).
  { rewrite (run_pending_unresolved es s Hes). apply unresolved_all. exact Hall. }
  split; [exact Hempty |].
  unfold renderPreviewTab. rewrite Hempty. reflexivity.
Qed.

Lemma deciding_all_shows_notice_witness :
  let es := [RejectClicked "preview_2"; ApproveClicked "preview_1";
             ToggleClicked; ApproveClicked "preview_3"] in
  forallb (fun e => negb (isMounted e)) es = true /\
  incl (pendingIds loadedState) (resolvedIds es) /\
  (pendingPreviews (run es loadedState) = [] /\
   renderPreviewTab (run es loadedState) = EmptyNotice).
Proof.
  assert (Hall : incl (pendingIds loadedState)
                   (resolvedIds [RejectClicked "preview_2"; ApproveClicked "preview_1";
                                 ToggleClicked; ApproveClicked "preview_3"])).
  { intros k Hk. vm_compute in Hk. simpl. tauto. }
  split; [reflexivity |]. split; [exact Hall |].
  exact (deciding_all_shows_notice
           [RejectClicked "preview_2"; ApproveClicked "preview_1";
            ToggleClicked; ApproveClicked "preview_3"]
           loadedState eq_refl Hall).
Defined.

(** X5: when the effect runs again it forgets every earlier decision: the list is
    the loaded array without the ids decided after the last run of the
    effect, whatever the state and the events before it. *)
Theorem reload_forgets_decisions (before after : list Event) (s : AppState) :
  forallb (fun e => negb (isMounted e)) after = true ->
  pendingPreviews (run (before ++ Mounted :: after) s)
  = unresolved (resolvedIds after) loadedPreviews.
Proof.
  intros Hafter. rewrite run_app. simpl.
  rewrite (run_pending_unresolved after _ Hafter). reflexivity.
Qed.

Lemma reload_forgets_decisions_witness :
  let before := [Mounted; ApproveClicked "preview_1"; RejectClicked "preview_2"] in
  let after := [ApproveClicked "preview_3"] in
  forallb (fun e => negb (isMounted e)) after = true /\
  pendingPreviews (run (before ++ Mounted :: after) initialState)
  = unresolved (resolvedIds after) loadedPreviews.
Proof.
  split; [reflexivity |].
  exact (reload_forgets_decisions
           [Mounted; ApproveClicked "preview_1"; RejectClicked "preview_2"]
           [ApproveClicked "preview_3"] initialState eq_refl).
Defined.

(** ** What a sequence of events does to the other cells *)

(** X6: no sequence of events, from any state, changes the channels or the
    statistics: the page has no path that writes them. *)
Theorem events_never_touch_channels_or_stats (es : list Event) (s : AppState) :
  channels (run es s) = channels s /\
  systemStats (run es s) = systemStats s.
Proof.
  revert s. induction es as [| e es IH]; intros s; simpl.
  - split; reflexivity.
  - destruct (IH (next (handle e s))) as [Hch Hst].
    rewrite Hch, Hst, handle_channels, handle_systemStats. split; reflexivity.
Qed.

(** X7: the run flag after a sequence of events: flipped when the header button
    was clicked an odd number of times, as it was otherwise; no other event
    moves it. *)
Theorem run_flag_parity (es : list Event) (s : AppState) :
  isSystemRunning (run es s)
  = xorb (isSystemRunning s) (Nat.odd (toggleCount es)).
Proof.
  revert s. induction es as [| e es IH]; intros s.
  - simpl. rewrite xorb_false_r. reflexivity.
  - simpl run. rewrite IH. unfold toggleCount.
    destruct e; simpl; try reflexivity.
    fold (toggleCount es). rewrite Nat.odd_succ, <- Nat.negb_odd.
    destruct (isSystemRunning s), (Nat.odd (toggleCount es)); reflexivity.
Qed.

(** X9: the active tab after a sequence of events is the tab selected last, and
    the tab before the sequence when none was selected. *)
Theorem active_tab_is_last_selected (es : list Event) (s : AppState) :
  activeTab (run es s) = lastTab es (activeTab s).
Proof.
  revert s. induction es as [| e es IH]; intros s.
  - reflexivity.
  - simpl run. rewrite IH. destruct e; reflexivity.
Qed.

(** ** The pending list never leaves the loaded array *)

Lemma filter_filter {A : Type} (p q : A -> bool) (l : list A) :
  filter p (filter q l) = filter (fun x => q x && p x) l.
Proof.
  induction l as [| x rest IH]; simpl.
  - reflexivity.
  - destruct (q x); simpl; [destruct (p x) |]; rewrite IH; reflexivity.
Qed.

Lemma filter_length_le {A : Type} (p : A -> bool) (l : list A) :
  (List.length (filter p l) <= List.length l)%nat.
Proof.
  induction l as [| x rest IH]; simpl.
  - lia.
  - destruct (p x); simpl; lia.
Qed.

(** X10: in every reachable state the pending list is the loaded array with some
    of its items left out, in the array's order: the page never shows an item
    it did not load, never shows one twice, and never more than three. *)
Theorem pending_is_selection_of_loaded (s : AppState) :
  reachable s ->
  (exists keep, pendingPreviews s = filter keep loadedPreviews) /\
  (List.length (pendingPreviews s) <= 3)%nat.
Proof.
  intros Hreach.
  assert (Hsel : exists keep, pendingPreviews s = filter keep loadedPreviews).
  { revert s Hreach.
    apply (reachable_pending_ind
             (fun l => exists keep, l = filter keep loadedPreviews)).
    - exists (fun _ => false). reflexivity.
    - exists (fun _ => true). reflexivity.
    - intros contentId prev [keep Hprev]. subst prev.
      unfold withoutId, Js.array_filter. rewrite filter_filter.
      eexists. reflexivity. }
  split; [exact Hsel |].
  destruct Hsel as [keep Hkeep]. rewrite Hkeep.
  apply (filter_length_le keep loadedPreviews).
Qed.

Lemma pending_is_selection_of_loaded_witness :
  let s := run [Mounted; RejectClicked "preview_2"; ToggleClicked] initialState in
  reachable s /\
  ((exists keep, pendingPreviews s = filter keep loadedPreviews) /\
   (List.length (pendingPreviews s) <= 3)%nat).
Proof.
  assert (Hreach : reachable
            (run [Mounted; RejectClicked "preview_2"; ToggleClicked] initialState)).
  { apply run_reachable. apply reach_init. }
  split; [exact Hreach |].
  exact (pending_is_selection_of_loaded _ Hreach).
Defined.

(** ** The console *)

(** X11: the line a decision writes tells which handler ran and for which id: two
    approvals write the same line only for the same id, likewise two
    rejections, and an approval never writes the line of a rejection. *)
Theorem console_line_identifies_decision (a b : string) (s s' : AppState) :
  (console (approveContent a s) = console (approveContent b s') -> a = b) /\
  (console (rejectContent a s) = console (rejectContent b s') -> a = b) /\
  console (approveContent a s) <> console (rejectContent b s').
Proof.
  repeat split; simpl; intros H; inversion H; reflexivity.
Qed.

(** ** The channel badge of a preview card *)

(** X12: the badge lookup never fails: it is [undefined] exactly when no channel
    carries the item's channelId, and otherwise the name of the first channel
    of the array that does. *)
Theorem channel_badge_lookup (s : AppState) (content : ContentItem.t) :
  (channelBadge s content = None <->
   forall c, In c (channels s) ->
             Channel.id c <> ContentItem.channelId content) /\
  (forall before c after,
      channels s = before ++ c :: after ->
      Channel.id c = ContentItem.channelId content ->
      (forall c', In c' before ->
                  Channel.id c' <> ContentItem.channelId content) ->
      channelBadge s content = Some (Channel.name c)).
Proof.
  unfold channelBadge, findChannel, Js.array_find, Js.strict_eq.
  split.
  - split.
    + intros Hnone c Hin.
      destruct (find _ (channels s)) eqn:Hfind; [discriminate Hnone |].
      apply String.eqb_neq. exact (find_none _ _ Hfind c Hin).
    + intros Hall.
      destruct (find _ (channels s)) eqn:Hfind; [| reflexivity].
      apply find_some in Hfind as [Hin Heq].
      apply String.eqb_eq in Heq. exfalso. exact (Hall _ Hin Heq).
  - intros before c after Hch Hid Hbefore. rewrite Hch. clear Hch.
    induction before as [| x rest IH]; simpl.
    + apply String.eqb_eq in Hid. rewrite Hid. reflexivity.
    + assert (Hx : String.eqb (Channel.id x) (ContentItem.channelId content) = false).
      { apply String.eqb_neq. apply Hbefore. left. reflexivity. }
      rewrite Hx. apply IH. intros c' Hc'. apply Hbefore. right. exact Hc'.
Qed.

(** ** The cards on screen *)

Lemma cardsShown_map (s : AppState) :
  cardsShown s = map (renderPreviewCard s) (pendingPreviews s).
Proof.
  unfold cardsShown, renderPreviewTab.
  destruct (pendingPreviews s); reflexivity.
Qed.

Lemma cardsShown_keys (s : AppState) :
  map previewKey (cardsShown s) = pendingIds s.
Proof.
  rewrite cardsShown_map, map_map. reflexivity.
Qed.

(** A card depends on the state only through the channels. *)
Lemma renderPreviewCard_frame (e : Event) (s : AppState) (content : ContentItem.t) :
  renderPreviewCard (next (handle e s)) content = renderPreviewCard s content.
Proof.
  unfold renderPreviewCard, channelBadge.
  rewrite findChannel_frame. reflexivity.
Qed.

(** X13: in every reachable state the React keys of the preview cards are pairwise
    distinct, and so are the keys of the channel cards. *)
Theorem card_keys_unique (s : AppState) :
  reachable s ->
  NoDup (map previewKey (cardsShown s)) /\
  NoDup (map channelKey (renderChannelsTab s)).
Proof.
  intros Hreach. split.
  - rewrite cardsShown_keys. apply reachable_ids_unique. exact Hreach.
  - unfold renderChannelsTab. rewrite (reachable_channels s Hreach).
    repeat constructor; simpl; intuition discriminate.
Qed.

Lemma card_keys_unique_witness :
  let s := run [Mounted; ApproveClicked "preview_2"] initialState in
  reachable s /\
  (NoDup (map previewKey (cardsShown s)) /\
   NoDup (map channelKey (renderChannelsTab s))).
Proof.
  assert (Hreach : reachable (run [Mounted; ApproveClicked "preview_2"] initialState)).
  { apply run_reachable. apply reach_init. }
  split; [exact Hreach |].
  exact (card_keys_unique _ Hreach).
Defined.

(** X14: in every reachable state, clicking either button of a card on screen
    takes that card, and only that card, off the screen: the pending count
    drops by one, the card's key is gone, and every other card is shown
    unchanged. *)
Theorem offered_click_removes_its_card (s : AppState) (card : PreviewCard)
    (e : Event) :
  reachable s ->
  In card (cardsShown s) ->
  e = onApproveClick card \/ e = onRejectClick card ->
  let s' := next (handle e s) in
  pendingShown s' = pendingShown s - 1 /\
  ~ In (previewKey card) (map previewKey (cardsShown s')) /\
  (forall other, In other (cardsShown s) ->
                 previewKey other <> previewKey card ->
                 In other (cardsShown s')).
Proof.
  intros Hreach Hcard He.
  rewrite cardsShown_map in Hcard.
  apply in_map_iff in Hcard as [content [Hrender Hcontent]].
  subst card. simpl in He.
  assert (Hpending : pendingPreviews (next (handle e s))
                     = withoutId (ContentItem.id content) (pendingPreviews s))
    by (destruct He; subst e; reflexivity).
  assert (Hin : In (ContentItem.id content) (map ContentItem.id (pendingPreviews s)))
    by (apply in_map; exact Hcontent).
  destruct (withoutId_split (ContentItem.id content) (pendingPreviews s)
              (reachable_ids_unique s Hreach) Hin)
    as (before & item & after & Hprev & Hid & Hout).
  cbv zeta. repeat split.
  - unfold pendingShown. rewrite Hpending, Hout, Hprev.
    rewrite !length_app. simpl. lia.
  - rewrite cardsShown_keys. unfold pendingIds. rewrite Hpending.
    simpl. apply withoutId_removes.
  - intros other Hother Hkey.
    rewrite cardsShown_map in Hother.
    apply in_map_iff in Hother as [content' [Hrender' Hcontent']].
    subst other. simpl in Hkey.
    rewrite cardsShown_map, Hpending.
    apply in_map_iff. exists content'. split.
    + apply renderPreviewCard_frame.
    + apply withoutId_In. split; assumption.
Qed.

Lemma offered_click_removes_its_card_witness :
  let s := loadedState in
  let card := renderPreviewCard s preview_2 in
  let e := onRejectClick card in
  let s' := next (handle e s) in
  reachable s /\
  In card (cardsShown s) /\
  (e = onApproveClick card \/ e = onRejectClick card) /\
  (pendingShown s' = pendingShown s - 1 /\
   ~ In (previewKey card) (map previewKey (cardsShown s')) /\
   (forall other, In other (cardsShown s) ->
                  previewKey other <> previewKey card ->
                  In other (cardsShown s'))).
Proof.
  assert (Hcard : In (renderPreviewCard loadedState preview_2) (cardsShown loadedState)).
  { right. left. reflexivity. }
  split; [exact loadedState_reachable |].
  split; [exact Hcard |].
  split; [right; reflexivity |].
  exact (offered_click_removes_its_card loadedState
           (renderPreviewCard loadedState preview_2)
           (onRejectClick (renderPreviewCard loadedState preview_2))
           loadedState_reachable Hcard (or_intror eq_refl)).
Defined.

(** X15: the "awaiting review" figure of the analytics tab is the number of cards
    the preview tab shows, in every state. *)
Theorem panel_pending_counts_cards (s : AppState) :
  panelPending (renderProductionPanel s) = Z.of_nat (List.length (cardsShown s)).
Proof.
  rewrite cardsShown_map, length_map. reflexivity.
Qed.

(** ** The header *)

(** X16: the header shows the run state: two states render the same header exactly
    when their run flags agree, and a click on its button changes what it
    shows. *)
Theorem header_shows_run_state (s s' : AppState) :
  (renderHeader s = renderHeader s' <-> isSystemRunning s = isSystemRunning s') /\
  renderHeader (next (handle (buttonOnClick (renderHeader s)) s)) <> renderHeader s.
Proof.
  split; [split |].
  - intros H. apply (f_equal buttonIcon) in H. simpl in H.
    destruct (isSystemRunning s), (isSystemRunning s');
      try reflexivity; discriminate H.
  - intros H. unfold renderHeader. rewrite H. reflexivity.
  - intros H. apply (f_equal buttonIcon) in H. simpl in H.
    destruct (isSystemRunning s); discriminate H.
Qed.

(** ** Several handlers from one render *)

(** An event other than a click on the header button enqueues what its
    handler does to the state the queue has reached: it reads nothing from
    the render. *)
Lemma enqueued_not_toggle (rendered current : AppState) (e : Event) :
  isToggle e = false ->
  applyUpdates (enqueued rendered e) current = next (handle e current).
Proof. destruct e; intros H; try discriminate H; reflexivity. Qed.

Lemma applyUpdates_app (us1 us2 : list Update) (s : AppState) :
  applyUpdates (us1 ++ us2) s = applyUpdates us2 (applyUpdates us1 s).
Proof. unfold applyUpdates. apply fold_left_app. Qed.

Lemma queue_without_toggle (rendered : AppState) (es : list Event) :
  forall current,
    forallb (fun e => negb (isToggle e)) es = true ->
    applyUpdates (flat_map (enqueued rendered) es) current = run es current.
Proof.
  induction es as [| e es IH]; intros current Hes; simpl in *.
  - reflexivity.
  - apply andb_true_iff in Hes as [He Hes].
    apply negb_true_iff in He.
    rewrite applyUpdates_app, (enqueued_not_toggle rendered current e He).
    apply IH. exact Hes.
Qed.

(** X17: handling one event per render is what the update queue does; and any
    number of approvals, rejections, tab selections and effect runs issued
    from one render have the effect of handling them one render at a time,
    because approve and reject pass an updater to [setPendingPreviews]. *)
Theorem batch_agrees_with_run (es : list Event) (s : AppState) :
  forallb (fun e => negb (isToggle e)) es = true \/ (List.length es <= 1)%nat ->
  batch es s = run es s.
Proof.
  intros [Hes | Hshort].
  - apply queue_without_toggle. exact Hes.
  - destruct es as [| e [| e' es]]; simpl in Hshort; try lia.
    + reflexivity.
    + destruct e; reflexivity.
Qed.

Lemma batch_agrees_with_run_witness :
  let es := [ApproveClicked "preview_1"; RejectClicked "preview_3"] in
  (forallb (fun e => negb (isToggle e)) es = true \/ (List.length es <= 1)%nat) /\
  batch es loadedState = run es loadedState.
Proof.
  split; [left; reflexivity |].
  exact (batch_agrees_with_run
           [ApproveClicked "preview_1"; RejectClicked "preview_3"]
           loadedState (or_introl eq_refl)).
Defined.

Lemma queue_run_flag (rendered : AppState) (es : list Event) :
  forall current,
    isSystemRunning (applyUpdates (flat_map (enqueued rendered) es) current)
    = if existsb isToggle es
      then negb (isSystemRunning rendered)
      else isSystemRunning current.
Proof.
  induction es as [| e es IH]; intros current; simpl.
  - reflexivity.
  - rewrite applyUpdates_app, IH.
    destruct e; simpl; try reflexivity.
    destruct (existsb isToggle es); reflexivity.
Qed.

(** X18: [toggleSystem] passes a value computed from the rendered flag, not an
    updater: however many times the header button is clicked within one
    render, the flag ends up flipped once.  Handled one render at a time, two
    clicks would restore it. *)
Theorem batched_toggles_flip_once (es : list Event) (s : AppState) :
  isSystemRunning (batch es s)
  = (if existsb isToggle es then negb (isSystemRunning s) else isSystemRunning s) /\
  isSystemRunning (batch [ToggleClicked; ToggleClicked] s)
  <> isSystemRunning (run [ToggleClicked; ToggleClicked] s).
Proof.
  split.
  - unfold batch. apply queue_run_flag.
  - simpl. destruct (isSystemRunning s); discriminate.
Qed.

(** ** Progress bars *)

(** X19: in every reachable state each channel card's progress value and the
    production panel's progress value, computed in double arithmetic, lie
    between 0 and 100 (no division by zero, no NaN), and the publish rate the
    panel prints is 26. *)
Theorem progress_values_within_bar (s : AppState) :
  reachable s ->
  Forall (fun card => Number.withinBar (channelProgress card) = true)
         (renderChannelsTab s) /\
  Number.withinBar (panelProgress (renderProductionPanel s)) = true /\
  panelRate (renderProductionPanel s) = Some 26.
Proof.
  intros Hreach.
  unfold renderChannelsTab, renderProductionPanel. simpl.
  rewrite (reachable_channels s Hreach), (reachable_systemStats s Hreach).
  split; [| split].
  - repeat constructor.
  - vm_compute. reflexivity.
  - vm_compute. reflexivity.
Qed.

Lemma progress_values_within_bar_witness :
  let s := run [Mounted; ToggleClicked; RejectClicked "preview_1"] initialState in
  reachable s /\
  (Forall (fun card => Number.withinBar (channelProgress card) = true)
          (renderChannelsTab s) /\
   Number.withinBar (panelProgress (renderProductionPanel s)) = true /\
   panelRate (renderProductionPanel s) = Some 26).
Proof.
  assert (Hreach : reachable
            (run [Mounted; ToggleClicked; RejectClicked "preview_1"] initialState)).
  { apply run_reachable. apply reach_init. }
  split; [exact Hreach |].
  exact (progress_values_within_bar _ Hreach).
Defined.

(** A channel that generated nothing has no progress value: 0/0 is NaN,
    which is outside the bar and has no rounded rate. *)
Example percentage_of_nothing :
  Number.withinBar (Number.percentage 0 0) = false /\
  Number.mathRound (Number.percentage 0 0) = None.
Proof. split; vm_compute; reflexivity. Qed.

(** ** No card falls back *)

Lemma reachable_pending_loaded (s : AppState) :
  reachable s -> incl (pendingPreviews s) loadedPreviews.
Proof.
  apply (reachable_pending_ind (fun l => incl l loadedPreviews)).
  - intros x [].
  - apply incl_refl.
  - intros contentId prev Hprev x Hx.
    apply withoutId_In in Hx as [Hx _]. apply Hprev. exact Hx.
Qed.

(** X20: in every reachable state no preview card shows the fallback icon of
    [getMediaIcon] or an undefined channel badge, and every channel card shows
    the badge of an active channel with the icon of its platform: Smartphone
    for the TikTok channels, Video for the others. *)
Theorem cards_never_fall_back (s : AppState) :
  reachable s ->
  Forall (fun card =>
            (previewIcon card = Video \/ previewIcon card = Image) /\
            previewBadge card <> None)
         (cardsShown s) /\
  Forall (fun card =>
            channelBadgeVariant card = "default" /\
            (channelIcon card = Smartphone <-> channelDescription card = "TikTok") /\
            (channelIcon card = Video <-> channelDescription card = "YouTube"))
         (renderChannelsTab s).
Proof.
  intros Hreach. split.
  - rewrite cardsShown_map. apply Forall_forall. intros card Hcard.
    apply in_map_iff in Hcard as [content [Hrender Hcontent]]. subst card.
    apply (reachable_pending_loaded s Hreach) in Hcontent.
    unfold renderPreviewCard, channelBadge, findChannel. simpl.
    rewrite (reachable_channels s Hreach).
    destruct Hcontent as [<- | [<- | [<- | []]]]; simpl;
      (split; [auto | discriminate]).
  - unfold renderChannelsTab. rewrite (reachable_channels s Hreach).
    repeat constructor; simpl; try reflexivity; intros H; discriminate H.
Qed.

Lemma cards_never_fall_back_witness :
  let s := run [Mounted; ApproveClicked "preview_1"] initialState in
  reachable s /\
  (Forall (fun card =>
             (previewIcon card = Video \/ previewIcon card = Image) /\
             previewBadge card <> None)
          (cardsShown s) /\
   Forall (fun card =>
             channelBadgeVariant card = "default" /\
             (channelIcon card = Smartphone <-> channelDescription card = "TikTok") /\
             (channelIcon card = Video <-> channelDescription card = "YouTube"))
          (renderChannelsTab s)).
Proof.
  assert (Hreach : reachable (run [Mounted; ApproveClicked "preview_1"] initialState)).
  { apply run_reachable. apply reach_init. }
  split; [exact Hreach |].
  exact (cards_never_fall_back _ Hreach).
Defined.
